(** * CrewAI-Studio, [app/llms.py]: the environment switch/restore protocol

    A shallow embedding of the module that turns a ["provider: model"]
    selector into a language-model client.  The module works on two pieces
    of process-wide mutable state:

    - [os.environ], the process environment, a mapping from names to strings;
    - [st.session_state.env_vars], the credential snapshot, a dict from
      names to [str | None] that may not have been created yet.

    Python functions become computations in a state-and-exception monad
    [M]; a raised exception keeps the state reached at the [raise], which
    is what the callers of a failing constructor observe. *)

From Stdlib Require Import Floats.
From stdpp Require Import gmap strings list fin_maps.

Set Warnings "-inexact-float".
Local Open Scope string_scope.
Local Arguments String.append : simpl nomatch.

(** ** Python values and exceptions *)

(** The exceptions the module can raise.  [ValueError] carries its message,
    [KeyError] the missing dict key, [AttributeError] the missing
    attribute of [st.session_state]. *)
Inductive exn : Type :=
  | ValueError (msg : string)
  | KeyError (key : string)
  | AttributeError (attr : string).

Inductive result (A : Type) : Type :=
  | Ok (a : A)
  | Raise (e : exn).
Arguments Ok {A} a.
Arguments Raise {A} e.

(** [os.environ] and the snapshot dict.  A snapshot entry [Some None] is a
    key bound to Python's [None]; [None] is a key that is not in the dict. *)
Record state : Type := State {
  environ : gmap string string;
  session_env_vars : option (gmap string (option string))
}.

Definition M (A : Type) : Type := state → result A * state.

Definition ret {A} (a : A) : M A := λ st, (Ok a, st).
Definition raise {A} (e : exn) : M A := λ st, (Raise e, st).
Definition bind {A B} (c : M A) (k : A → M B) : M B :=
  λ st, match c st with
        | (Ok a, st') => k a st'
        | (Raise e, st') => (Raise e, st')
        end.

Notation "'let*' x ':=' c 'in' k" := (bind c (λ x, k))
  (at level 10, x name, c at level 100, k at level 200,
   format "'[v' 'let*'  x  ':='  c  'in' '/' k ']'").
Notation "c1 >> c2" := (bind c1 (λ _, c2))
  (at level 100, c2 at level 200, right associativity).

(** Truthiness of a [str | None] value: [None] and the empty string are
    falsy. *)
Definition truthy (v : option string) : bool :=
  match v with
  | Some (String _ _) => true
  | _ => false
  end.

(** ** [os.environ] and [os.getenv] *)

Definition getenv (key : string) : M (option string) :=
  λ st, (Ok (environ st !! key), st).

Definition getenv_default (key fallback : string) : M (option string) :=
  λ st, (Ok (Some (default fallback (environ st !! key))), st).

(** [os.environ[key] = value], for a name and a value the platform
    accepts (the module only writes its seven fixed names). *)
Definition environ_setitem (key value : string) : M unit :=
  λ st, (Ok tt, State (<[key:=value]> (environ st)) (session_env_vars st)).

(** ** [st.session_state.env_vars] *)

Definition env_vars : M (gmap string (option string)) :=
  λ st, match session_env_vars st with
        | Some d => (Ok d, st)
        | None => (Raise (AttributeError "env_vars"), st)
        end.

(** ["env_vars" in st.session_state] *)
Definition has_env_vars : M bool :=
  λ st, (Ok (match session_env_vars st with Some _ => true | None => false end), st).

(** [st.session_state.env_vars = d] *)
Definition set_env_vars (d : gmap string (option string)) : M unit :=
  λ st, (Ok tt, State (environ st) (Some d)).

(** [st.session_state.env_vars[key]] *)
Definition env_vars_getitem (key : string) : M (option string) :=
  let* d := env_vars in
  match d !! key with
  | Some v => ret v
  | None => raise (KeyError key)
  end.

(** [st.session_state.env_vars[key] = value] *)
Definition env_vars_setitem (key value : string) : M unit :=
  let* d := env_vars in
  set_env_vars (<[key:=Some value]> d).

(** ** [str.split] with a separator *)

(** [s.startswith(sep)] *)
Fixpoint is_prefix (sep s : string) : bool :=
  match sep, s with
  | EmptyString, _ => true
  | String a sep', String b s' => if Ascii.eqb a b then is_prefix sep' s' else false
  | String _ _, EmptyString => false
  end.

(** Left-to-right scan for non-overlapping occurrences of [sep].  [skip]
    counts the characters of a matched separator still to be dropped and
    [cur] is the piece being collected. *)
Fixpoint split_from (sep : string) (skip : nat) (cur s : string) : list string :=
  match s with
  | EmptyString => [cur]
  | String c s' =>
      match skip with
      | S n => split_from sep n cur s'
      | O =>
          if is_prefix sep s
          then cur :: split_from sep (String.length sep - 1) "" s'
          else split_from sep 0 (cur +:+ String c "") s'
      end
  end.

Definition str_split (sep s : string) : M (list string) :=
  match sep with
  | EmptyString => raise (ValueError "empty separator")
  | _ => ret (split_from sep 0 "" s)
  end.

(** [sep in s] *)
Fixpoint contains (sep s : string) : bool :=
  is_prefix sep s ||
  match s with
  | EmptyString => false
  | String _ s' => contains sep s'
  end.

(** ** The module *)

Definition recognized : list string :=
  [ "OPENAI_API_KEY"; "OPENAI_API_BASE"; "GROQ_API_KEY"; "LMSTUDIO_API_BASE";
    "ANTHROPIC_API_KEY"; "OLLAMA_HOST"; "GOOGLE_API_KEY" ].

(** [load_dotenv(override=True)]: every binding of the parsed [.env] file
    is written to [os.environ], replacing the value already there.  The
    parsed file is the argument [dotenv]. *)
Definition load_dotenv_override (dotenv : gmap string string) : M unit :=
  λ st, (Ok tt, State (dotenv ∪ environ st) (session_env_vars st)).

Definition load_secrets_fron_env (dotenv : gmap string string) : M unit :=
  load_dotenv_override dotenv >>
  let* initialized := has_env_vars in
  if negb initialized then
    let* openai_api_key := getenv "OPENAI_API_KEY" in
    let* openai_api_base := getenv_default "OPENAI_API_BASE" "https://api.openai.com/v1/" in
    let* groq_api_key := getenv "GROQ_API_KEY" in
    let* lmstudio_api_base := getenv "LMSTUDIO_API_BASE" in
    let* anthropic_api_key := getenv "ANTHROPIC_API_KEY" in
    let* ollama_host := getenv "OLLAMA_HOST" in
    let* google_api_key := getenv "GOOGLE_API_KEY" in
    set_env_vars
      (<["GOOGLE_API_KEY" := google_api_key]>
      (<["OLLAMA_HOST" := ollama_host]>
      (<["ANTHROPIC_API_KEY" := anthropic_api_key]>
      (<["LMSTUDIO_API_BASE" := lmstudio_api_base]>
      (<["GROQ_API_KEY" := groq_api_key]>
      (<["OPENAI_API_BASE" := openai_api_base]>
      (<["OPENAI_API_KEY" := openai_api_key]> ∅)))))))
  else
    let* d := env_vars in
    set_env_vars d.

(** [new_env_vars] is the dict's [items()], in insertion order. *)
Fixpoint switch_environment (new_env_vars : list (string * option string)) : M unit :=
  match new_env_vars with
  | [] => ret tt
  | (key, value) :: rest =>
      match value with
      | Some v => environ_setitem key v >> env_vars_setitem key v
      | None => ret tt
      end >>
      switch_environment rest
  end.

(** One iteration of the loop of [restore_environment]. *)
Definition restore_item (key : string) (value : option string)
    (env : gmap string string) : gmap string string :=
  match value with
  | Some v => <[key:=v]> env
  | None => if bool_decide (is_Some (env !! key)) then delete key env else env
  end.

(** The loop runs once per key of the snapshot and each iteration touches
    only that key's variable, so it is a fold over the dict. *)
Definition restore_environment : M unit :=
  let* d := env_vars in
  λ st, (Ok tt, State (map_fold restore_item (environ st) d) (session_env_vars st)).

Definition safe_pop_env_var (key : string) : M unit :=
  λ st, (Ok tt, State (delete key (environ st)) (session_env_vars st)).

(** ** Client objects

    The vendor classes are external; a client is recorded as the
    constructor that was called and the arguments it was given. *)
Inductive client : Type :=
  | LLM (model : string) (temperature : float) (base_url : option string)
  | ChatAnthropic (anthropic_api_key : option string) (model_name : string)
      (temperature : float) (max_tokens : Z)
  | ChatGroq (groq_api_key : option string) (model_name : string)
      (temperature : float) (max_tokens : Z)
  | ChatGoogleGenerativeAI (google_api_key : option string) (model : string)
      (temperature : float) (convert_system_message_to_human : bool)
  | ChatOpenAI (openai_api_key : string) (openai_api_base : option string)
      (temperature : float) (max_tokens : Z).

(** ** Provider constructors *)

Definition create_openai_llm (model : string) (temperature : float) : M client :=
  let* key := env_vars_getitem "OPENAI_API_KEY" in
  let* base := env_vars_getitem "OPENAI_API_BASE" in
  switch_environment [("OPENAI_API_KEY", key); ("OPENAI_API_BASE", base)] >>
  let* api_key := getenv "OPENAI_API_KEY" in
  let* api_base := getenv "OPENAI_API_BASE" in
  if truthy api_key
  then ret (LLM model temperature api_base)
  else raise (ValueError "OpenAI API key not set in .env file").

Definition create_anthropic_llm (model : string) (temperature : float) : M client :=
  let* key := env_vars_getitem "ANTHROPIC_API_KEY" in
  switch_environment [("ANTHROPIC_API_KEY", key)] >>
  let* api_key := getenv "ANTHROPIC_API_KEY" in
  if truthy api_key
  then ret (ChatAnthropic api_key model temperature 4095)
  else raise (ValueError "Anthropic API key not set in .env file").

Definition create_groq_llm (model : string) (temperature : float) : M client :=
  let* key := env_vars_getitem "GROQ_API_KEY" in
  switch_environment [("GROQ_API_KEY", key)] >>
  let* api_key := getenv "GROQ_API_KEY" in
  if truthy api_key
  then ret (ChatGroq api_key model temperature 4095)
  else raise (ValueError "Groq API key not set in .env file").

Definition create_google_llm (model : string) (temperature : float) : M client :=
  let* key := env_vars_getitem "GOOGLE_API_KEY" in
  switch_environment [("GOOGLE_API_KEY", key)] >>
  let* api_key := getenv "GOOGLE_API_KEY" in
  if truthy api_key
  then ret (ChatGoogleGenerativeAI api_key model temperature true)
  else raise (ValueError "Google API key not set in .env file").

Definition create_ollama_llm (model : string) (temperature : float) : M client :=
  let* host := env_vars_getitem "OLLAMA_HOST" in
  if truthy host
  then
    switch_environment [("OPENAI_API_KEY", Some "ollama"); ("OPENAI_API_BASE", host)] >>
    ret (LLM model temperature host)
  else raise (ValueError "Ollama Host is not set in .env file").

Definition create_lmstudio_llm (model : string) (temperature : float) : M client :=
  let* base := env_vars_getitem "LMSTUDIO_API_BASE" in
  switch_environment [("OPENAI_API_KEY", Some "lm-studio"); ("OPENAI_API_BASE", base)] >>
  let* api_base := getenv "OPENAI_API_BASE" in
  if truthy api_base
  then ret (ChatOpenAI "lm-studio" api_base temperature 4095)
  else raise (ValueError "LM Studio API base not set in .env file").

(** ** The provider registry and the factory *)

Record provider_entry : Type := ProviderEntry {
  models : list string;
  create_llm_func : string → float → M client
}.

(** Lookup in a dict written as its items in insertion order. *)
Fixpoint dict_get {V} (d : list (string * V)) (key : string) : option V :=
  match d with
  | [] => None
  | (k, v) :: d' => if String.eqb k key then Some v else dict_get d' key
  end.

Section Registry.
(** [os.environ] as it was when the module was imported: two model lists
    are read from it. *)
Variable import_environ : gmap string string.

(** [os.getenv(name, "").split(",") if os.getenv(name) else fallback] *)
Definition models_from_env (name : string) (fallback : list string) : list string :=
  if truthy (import_environ !! name)
  then split_from "," 0 "" (default "" (import_environ !! name))
  else fallback.

Definition LLM_CONFIG : list (string * provider_entry) :=
  [ ("OpenAI",
     ProviderEntry
       (models_from_env "OPENAI_PROXY_MODELS"
          ["gpt-4o"; "gpt-4o-mini"; "gpt-3.5-turbo"; "gpt-4-turbo"])
       create_openai_llm);
    ("Groq",
     ProviderEntry ["llama3-8b-8192"; "llama3-70b-8192"; "mixtral-8x7b-32768"]
       create_groq_llm);
    ("Google",
     ProviderEntry ["gemini-1.5-pro"; "gemini-1.5-flash"] create_google_llm);
    ("Ollama",
     ProviderEntry (models_from_env "OLLAMA_MODELS" []) create_ollama_llm);
    ("Anthropic",
     ProviderEntry ["claude-3-5-sonnet-20240620"] create_anthropic_llm);
    ("LM Studio",
     ProviderEntry ["lms-default"] create_lmstudio_llm) ].

Definition llm_providers_and_models : list string :=
  '(provider, entry) ← LLM_CONFIG;
  model ← models entry;
  [provider +:+ ": " +:+ model].

Definition create_llm (provider_and_model : string) (temperature : float) : M client :=
  let* parts := str_split ": " provider_and_model in
  match parts with
  | [provider; model] =>
      match dict_get LLM_CONFIG provider with
      | Some entry =>
          let* llm := create_llm_func entry model temperature in
          restore_environment >>
          ret llm
      | None =>
          raise (ValueError
                   ("LLM provider " +:+ provider +:+
                    " is not recognized or not supported"))
      end
  | [] => raise (ValueError "not enough values to unpack (expected 2, got 0)")
  | [_] => raise (ValueError "not enough values to unpack (expected 2, got 1)")
  | _ => raise (ValueError "too many values to unpack (expected 2)")
  end.
End Registry.

Definition default_temperature : float := 0.15%float.


(** ** Specification vocabulary *)

(** The value a sequence of overrides ends up writing for [key]: the last
    pair for [key] whose value is present, if there is one. *)
Fixpoint override_of (new_env_vars : list (string * option string)) (key : string)
    : option string :=
  match new_env_vars with
  | [] => None
  | (k, v) :: rest =>
      match override_of rest key with
      | Some x => Some x
      | None => if decide (k = key) then v else None
      end
  end.

(** What the loop of [switch_environment] does to [os.environ] and to an
    existing snapshot, as functions. *)
Definition switch_environ (new_env_vars : list (string * option string))
    (env : gmap string string) : gmap string string :=
  foldl (λ e kv, match kv.2 with Some v => <[kv.1:=v]> e | None => e end)
        env new_env_vars.

Definition switch_snapshot (new_env_vars : list (string * option string))
    (d : gmap string (option string)) : gmap string (option string) :=
  foldl (λ e kv, match kv.2 with Some v => <[kv.1:=Some v]> e | None => e end)
        d new_env_vars.

(** The environment agrees with the snapshot on every key of the snapshot. *)
Definition in_sync (env : gmap string string) (d : gmap string (option string)) : Prop :=
  ∀ k v, d !! k = Some v → env !! k = v.



(** A session used in the examples: an OpenAI key, the public base URL and
    an Ollama host in the environment, then [load_secrets_fron_env] with an
    empty [.env] file. *)
Definition example_environ : gmap string string :=
  {[ "OPENAI_API_KEY" := "sk-x";
     "OPENAI_API_BASE" := "https://api.openai.com/v1/";
     "OLLAMA_HOST" := "http://localhost:11434" ]}.

Definition example_snapshot : gmap string (option string) :=
  {[ "OPENAI_API_KEY" := Some "sk-x";
     "OPENAI_API_BASE" := Some "https://api.openai.com/v1/";
     "GROQ_API_KEY" := None;
     "LMSTUDIO_API_BASE" := None;
     "ANTHROPIC_API_KEY" := None;
     "OLLAMA_HOST" := Some "http://localhost:11434";
     "GOOGLE_API_KEY" := None ]}.

Definition example_state : state := State example_environ (Some example_snapshot).

(** The claim C2 read on a run: some recognized name ends up holding a
    value that an override of [a] or [b] wrote and that no entry of the
    original snapshot held. *)
Definition keeps_transient (orig : gmap string (option string))
    (a b : list (string * option string)) (env : gmap string string) : Prop :=
  ∃ k v,
    k ∈ recognized ∧ env !! k = Some v ∧
    ((k, Some v) ∈ a ∨ (k, Some v) ∈ b) ∧
    map_Forall (λ _ w, w ≠ Some v) orig.


(** The providers whose constructor reads one API key, with the snapshot
    entry it reads and the message of the [ValueError] it raises. *)
Definition key_providers : list (string * string * string) :=
  [ ("Anthropic", "ANTHROPIC_API_KEY", "Anthropic API key not set in .env file");
    ("Groq", "GROQ_API_KEY", "Groq API key not set in .env file");
    ("Google", "GOOGLE_API_KEY", "Google API key not set in .env file") ].

(** * Properties *)

(** ** The monad *)

Lemma bind_Ok {A B} (c : M A) (k : A → M B) st a st' :
  c st = (Ok a, st') → bind c k st = k a st'.
Proof. unfold bind. by intros ->. Qed.

Lemma bind_Raise {A B} (c : M A) (k : A → M B) st e st' :
  c st = (Raise e, st') → bind c k st = (Raise e, st').
Proof. unfold bind. by intros ->. Qed.

(** ** Strings *)

Lemma append_empty_r (s : string) : s +:+ "" = s.
Proof. induction s as [|c s IH]; simpl; [done | by rewrite IH]. Qed.

Lemma append_assoc (s1 s2 s3 : string) : (s1 +:+ s2) +:+ s3 = s1 +:+ (s2 +:+ s3).
Proof. induction s1 as [|c s1 IH]; simpl; [done | by rewrite IH]. Qed.

Lemma is_prefix_spec (sep s : string) :
  is_prefix sep s = true ↔ ∃ post, s = sep +:+ post.
Proof.
  revert s. induction sep as [|a sep IH]; intros s; simpl.
  - split; [intros _; by exists s | done].
  - destruct s as [|b s].
    + split; [done | intros [post Hpost]; discriminate].
    + destruct (Ascii.eqb_spec a b) as [->|Hab].
      * rewrite IH. split; intros [post Hpost]; exists post; congruence.
      * split; [done | intros [post Hpost]; congruence].
Qed.

(** [contains] is substring occurrence. *)
Lemma contains_spec (sep s : string) :
  contains sep s = true ↔ ∃ pre post, s = pre +:+ sep +:+ post.
Proof.
  induction s as [|c s IH].
  - simpl. rewrite orb_false_r, is_prefix_spec. split.
    + intros [post Hpost]. by exists "", post.
    + intros [[|c pre] [post Hpost]]; [by exists post | discriminate].
  - cbn [contains]. rewrite orb_true_iff, is_prefix_spec, IH. split.
    + intros [[post Hpost] | (pre & post & Hs)].
      * by exists "", post.
      * exists (String c pre), post. simpl. by rewrite Hs.
    + intros [[|c' pre] [post Hpost]].
      * left. by exists post.
      * right. exists pre, post. simpl in Hpost. congruence.
Qed.

(** Without an occurrence of the separator, [split] returns the whole
    string as its only piece. *)
Lemma split_from_no_sep (sep cur s : string) :
  contains sep s = false → split_from sep 0 cur s = [cur +:+ s].
Proof.
  revert cur. induction s as [|c s IH]; intros cur Hs.
  - cbn [split_from]. by rewrite append_empty_r.
  - cbn [contains] in Hs. apply orb_false_iff in Hs as [Hp Hs].
    cbn [split_from]. rewrite Hp, (IH _ Hs), append_assoc. done.
Qed.

(** ** The restore loop *)

Lemma restore_item_lookup_eq key value (env : gmap string string) :
  restore_item key value env !! key = value.
Proof.
  destruct value as [v|]; simpl.
  - apply lookup_insert_eq.
  - case_bool_decide as Hk.
    + apply lookup_delete_eq.
    + by apply eq_None_not_Some.
Qed.

Lemma restore_item_lookup_ne key value (env : gmap string string) k :
  key ≠ k → restore_item key value env !! k = env !! k.
Proof.
  intros Hne. destruct value as [v|]; simpl.
  - by apply lookup_insert_ne.
  - case_bool_decide; [by apply lookup_delete_ne | done].
Qed.

Lemma restore_fold_lookup (d : gmap string (option string)) (env : gmap string string) k :
  map_fold restore_item env d !! k = match d !! k with Some v => v | None => env !! k end.
Proof.
  apply (map_fold_weak_ind
           (λ r m, r !! k = match m !! k with Some v => v | None => env !! k end)).
  - by rewrite lookup_empty.
  - intros i x m r Hi IH. destruct (decide (i = k)) as [->|Hne].
    + by rewrite restore_item_lookup_eq, lookup_insert_eq.
    + by rewrite restore_item_lookup_ne, lookup_insert_ne.
Qed.

(** ** The switch loop *)

Lemma switch_environment_cons_Some key v rest env d :
  switch_environment ((key, Some v) :: rest) (State env (Some d)) =
  switch_environment rest (State (<[key:=v]> env) (Some (<[key:=Some v]> d))).
Proof. reflexivity. Qed.

Lemma switch_environment_cons_None key rest st :
  switch_environment ((key, None) :: rest) st = switch_environment rest st.
Proof. reflexivity. Qed.

Lemma switch_environment_run m : ∀ env d,
  switch_environment m (State env (Some d)) =
  (Ok tt, State (switch_environ m env) (Some (switch_snapshot m d))).
Proof.
  induction m as [|[key [v|]] rest IH]; intros env d; [done| |].
  - by rewrite switch_environment_cons_Some, IH.
  - by rewrite switch_environment_cons_None, IH.
Qed.

Lemma switch_environ_lookup m : ∀ env k,
  switch_environ m env !! k =
  match override_of m k with Some x => Some x | None => env !! k end.
Proof.
  induction m as [|[key [v|]] rest IH]; intros env k; [done| |].
  - unfold switch_environ in *. cbn. rewrite IH.
    destruct (override_of rest k); [done|].
    case_decide as Hkey; [subst; by rewrite lookup_insert_eq|].
    by rewrite lookup_insert_ne.
  - unfold switch_environ in *. cbn. rewrite IH.
    destruct (override_of rest k); [done|]. by case_decide.
Qed.

Lemma switch_snapshot_lookup m : ∀ d k,
  switch_snapshot m d !! k =
  match override_of m k with Some x => Some (Some x) | None => d !! k end.
Proof.
  induction m as [|[key [v|]] rest IH]; intros d k; [done| |].
  - unfold switch_snapshot in *. cbn. rewrite IH.
    destruct (override_of rest k); [done|].
    case_decide as Hkey; [subst; by rewrite lookup_insert_eq|].
    by rewrite lookup_insert_ne.
  - unfold switch_snapshot in *. cbn. rewrite IH.
    destruct (override_of rest k); [done|]. by case_decide.
Qed.


(** Without a snapshot in session state the loop stops at the first pair
    with a present value: the environment variable is written, then the
    assignment to the snapshot raises. *)
Lemma switch_environment_no_snapshot key v rest env :
  switch_environment ((key, Some v) :: rest) (State env None) =
  (Raise (AttributeError "env_vars"), State (<[key:=v]> env) None).
Proof. reflexivity. Qed.


(** ** [restore_environment] *)

Lemma restore_environment_run env d :
  restore_environment (State env (Some d)) =
  (Ok tt, State (map_fold restore_item env d) (Some d)).
Proof. reflexivity. Qed.

(** C3: for a snapshot [d], [restore_environment] returns normally, keeps
    the snapshot, and leaves every key of [d] with exactly the snapshot's
    entry in the environment: the value when it is present, unset when it is
    [None].  Names that are not keys of the snapshot keep their binding. *)
Theorem restore_environment_replays_snapshot st d :
  session_env_vars st = Some d →
  ∃ env',
    restore_environment st = (Ok tt, State env' (Some d)) ∧
    (∀ k v, d !! k = Some (Some v) → env' !! k = Some v) ∧
    (∀ k, d !! k = Some None → env' !! k = None) ∧
    (∀ k, d !! k = None → env' !! k = environ st !! k).
Proof.
  intros Hd. exists (map_fold restore_item (environ st) d).
  split; [|repeat split].
  - destruct st as [env sd]. simpl in Hd. by subst sd.
  - intros k v Hk. by rewrite restore_fold_lookup, Hk.
  - intros k Hk. by rewrite restore_fold_lookup, Hk.
  - intros k Hk. by rewrite restore_fold_lookup, Hk.
Qed.

Lemma restore_environment_replays_snapshot_witness :
  ∃ env',
    restore_environment
      (State {[ "OPENAI_API_KEY" := "ollama"; "GROQ_API_KEY" := "gsk-y" ]}
         (Some {[ "OPENAI_API_KEY" := Some "sk-x"; "GROQ_API_KEY" := None ]})) =
    (Ok tt, State env' (Some {[ "OPENAI_API_KEY" := Some "sk-x"; "GROQ_API_KEY" := None ]})) ∧
    env' !! "OPENAI_API_KEY" = Some "sk-x" ∧ env' !! "GROQ_API_KEY" = None.
Proof.
  destruct (restore_environment_replays_snapshot
              (State {[ "OPENAI_API_KEY" := "ollama"; "GROQ_API_KEY" := "gsk-y" ]}
                 (Some {[ "OPENAI_API_KEY" := Some "sk-x"; "GROQ_API_KEY" := None ]}))
              {[ "OPENAI_API_KEY" := Some "sk-x"; "GROQ_API_KEY" := None ]}
              eq_refl) as (env' & Hrun & Hset & Hdel & _).
  exists env'. split; [exact Hrun|]. split.
  - apply Hset. reflexivity.
  - apply Hdel. reflexivity.
Defined.

(** ** [switch_environment] *)



(** ** Switch followed by restore *)



(** ** [load_secrets_fron_env] *)

(** C9: when the snapshot [d] already exists in session state,
    [load_secrets_fron_env] returns normally and the snapshot is still [d];
    only the [.env] bindings are written to the environment. *)
Theorem load_secrets_keeps_existing_snapshot dotenv st d :
  session_env_vars st = Some d →
  load_secrets_fron_env dotenv st = (Ok tt, State (dotenv ∪ environ st) (Some d)).
Proof.
  intros Hd. destruct st as [env sd]. simpl in Hd. by subst sd.
Qed.

Lemma load_secrets_keeps_existing_snapshot_witness :
  load_secrets_fron_env {[ "GROQ_API_KEY" := "gsk-new" ]}
    (State {[ "GROQ_API_KEY" := "gsk-old" ]} (Some {[ "GROQ_API_KEY" := Some "gsk-old" ]})) =
  (Ok tt,
   State ({[ "GROQ_API_KEY" := "gsk-new" ]} ∪ {[ "GROQ_API_KEY" := "gsk-old" ]})
     (Some {[ "GROQ_API_KEY" := Some "gsk-old" ]})).
Proof.
  exact (load_secrets_keeps_existing_snapshot {[ "GROQ_API_KEY" := "gsk-new" ]}
           (State {[ "GROQ_API_KEY" := "gsk-old" ]} (Some {[ "GROQ_API_KEY" := Some "gsk-old" ]}))
           {[ "GROQ_API_KEY" := Some "gsk-old" ]} eq_refl).
Defined.

(** A call always leaves a snapshot behind, so a second call changes no
    entry of it. *)
Lemma load_secrets_fron_env_twice dotenv1 dotenv2 st :
  ∃ env1 env2 d,
    load_secrets_fron_env dotenv1 st = (Ok tt, State env1 (Some d)) ∧
    load_secrets_fron_env dotenv2 (State env1 (Some d)) = (Ok tt, State env2 (Some d)).
Proof.
  destruct st as [env [d|]]; do 3 eexists; split; reflexivity.
Qed.

(** ** The factory: failures before a constructor runs *)

Lemma str_split_colon s st :
  str_split ": " s st = (Ok (split_from ": " 0 "" s), st).
Proof. reflexivity. Qed.

(** [create_llm] on a selector that splits into exactly two pieces. *)
Lemma create_llm_two_parts imp s t st provider model :
  split_from ": " 0 "" s = [provider; model] →
  create_llm imp s t st =
  match dict_get (LLM_CONFIG imp) provider with
  | Some entry =>
      (let* llm := create_llm_func entry model t in
       restore_environment >> ret llm) st
  | None =>
      (Raise (ValueError ("LLM provider " +:+ provider +:+
                          " is not recognized or not supported")), st)
  end.
Proof.
  intros Hs. unfold create_llm.
  rewrite (bind_Ok _ _ _ _ _ (str_split_colon s st)), Hs.
  by destruct (dict_get (LLM_CONFIG imp) provider).
Qed.

Lemma dict_get_None {V} (d : list (string * V)) key :
  dict_get d key = None ↔ key ∉ d.*1.
Proof.
  induction d as [|[k v] d IH]; cbn.
  - split; [intros _; apply not_elem_of_nil | done].
  - rewrite not_elem_of_cons. destruct (String.eqb_spec k key) as [->|Hne].
    + split; [done | by intros [? _]].
    + rewrite IH. split; [by intros ? | by intros [_ ?]].
Qed.

(** C6: a selector without the separator [": "] makes [create_llm] raise
    the unpacking [ValueError] before any constructor runs; the environment
    and the session state are what they were. *)
Theorem create_llm_format_error imp s t st :
  contains ": " s = false →
  create_llm imp s t st =
  (Raise (ValueError "not enough values to unpack (expected 2, got 1)"), st).
Proof.
  intros Hs. unfold create_llm.
  rewrite (bind_Ok _ _ _ _ _ (str_split_colon s st)).
  by rewrite (split_from_no_sep _ _ _ Hs).
Qed.

Lemma create_llm_format_error_witness :
  create_llm ∅ "OpenAI:gpt-4o" default_temperature
    (State {[ "OPENAI_API_KEY" := "sk-x" ]} None) =
  (Raise (ValueError "not enough values to unpack (expected 2, got 1)"),
   State {[ "OPENAI_API_KEY" := "sk-x" ]} None).
Proof.
  apply (create_llm_format_error ∅ "OpenAI:gpt-4o" default_temperature
           (State {[ "OPENAI_API_KEY" := "sk-x" ]} None)).
  reflexivity.
Defined.

(** C7: a selector of the form [provider: model] whose provider is not a
    key of [LLM_CONFIG] makes [create_llm] raise a [ValueError] whose
    message names the provider; the environment and the session state are
    what they were. *)
Theorem create_llm_unknown_provider imp s t st provider model :
  split_from ": " 0 "" s = [provider; model] →
  provider ∉ (LLM_CONFIG imp).*1 →
  create_llm imp s t st =
  (Raise (ValueError ("LLM provider " +:+ provider +:+
                      " is not recognized or not supported")), st).
Proof.
  intros Hs Hp. rewrite (create_llm_two_parts _ _ _ _ _ _ Hs).
  apply dict_get_None in Hp. by rewrite Hp.
Qed.

Lemma create_llm_unknown_provider_witness :
  create_llm ∅ "Mistral: large" default_temperature
    (State {[ "OPENAI_API_KEY" := "sk-x" ]} (Some {[ "OPENAI_API_KEY" := Some "sk-x" ]})) =
  (Raise (ValueError "LLM provider Mistral is not recognized or not supported"),
   State {[ "OPENAI_API_KEY" := "sk-x" ]} (Some {[ "OPENAI_API_KEY" := Some "sk-x" ]})).
Proof.
  apply (create_llm_unknown_provider ∅ "Mistral: large" default_temperature
           (State {[ "OPENAI_API_KEY" := "sk-x" ]}
              (Some {[ "OPENAI_API_KEY" := Some "sk-x" ]}))
           "Mistral" "large").
  - reflexivity.
  - apply (bool_decide_unpack _). vm_compute. exact I.
Defined.

(** ** The factory: a failing constructor *)

(** C5: when the constructor selected by [create_llm] raises, [create_llm]
    raises the same exception and ends in the state the constructor left:
    [restore_environment] is not run. *)
Theorem create_llm_skips_restore_on_error imp s t st provider model entry e st' :
  split_from ": " 0 "" s = [provider; model] →
  dict_get (LLM_CONFIG imp) provider = Some entry →
  create_llm_func entry model t st = (Raise e, st') →
  create_llm imp s t st = (Raise e, st').
Proof.
  intros Hs Hp Hc. rewrite (create_llm_two_parts _ _ _ _ _ _ Hs), Hp.
  by apply bind_Raise.
Qed.

(** The instance of the claim: LM Studio without a base URL.  The sentinel
    key stays in the environment and in the snapshot. *)
Lemma create_llm_skips_restore_on_error_witness :
  create_llm ∅ "LM Studio: lms-default" default_temperature
    (State {[ "OPENAI_API_KEY" := "sk-x" ]}
       (Some {[ "OPENAI_API_KEY" := Some "sk-x"; "LMSTUDIO_API_BASE" := None ]})) =
  (Raise (ValueError "LM Studio API base not set in .env file"),
   State {[ "OPENAI_API_KEY" := "lm-studio" ]}
     (Some {[ "OPENAI_API_KEY" := Some "lm-studio"; "LMSTUDIO_API_BASE" := None ]})).
Proof.
  apply (create_llm_skips_restore_on_error ∅ "LM Studio: lms-default" default_temperature
           (State {[ "OPENAI_API_KEY" := "sk-x" ]}
              (Some {[ "OPENAI_API_KEY" := Some "sk-x"; "LMSTUDIO_API_BASE" := None ]}))
           "LM Studio" "lms-default"
           (ProviderEntry ["lms-default"] create_lmstudio_llm)).
  - reflexivity.
  - reflexivity.
  - vm_compute. reflexivity.
Defined.

(** ** Provider constructors *)

Lemma env_vars_getitem_run env d key v :
  d !! key = Some v →
  env_vars_getitem key (State env (Some d)) = (Ok v, State env (Some d)).
Proof. intros Hk. unfold env_vars_getitem, bind, env_vars. cbn. by rewrite Hk. Qed.

Lemma truthy_Some c : c ≠ "" → truthy (Some c) = true.
Proof. by destruct c. Qed.

(** Unfold a constructor up to the test of the credential. *)
Ltac run_constructor :=
  repeat first
    [ erewrite bind_Ok; [|by apply env_vars_getitem_run]
    | erewrite bind_Ok; [|by apply switch_environment_run] ];
  unfold bind, getenv; cbn [environ].

Lemma create_openai_llm_run model t env d key base :
  d !! "OPENAI_API_KEY" = Some key →
  d !! "OPENAI_API_BASE" = Some base →
  let m := [("OPENAI_API_KEY", key); ("OPENAI_API_BASE", base)] in
  create_openai_llm model t (State env (Some d)) =
  (if truthy (switch_environ m env !! "OPENAI_API_KEY")
   then Ok (LLM model t (switch_environ m env !! "OPENAI_API_BASE"))
   else Raise (ValueError "OpenAI API key not set in .env file"),
   State (switch_environ m env) (Some (switch_snapshot m d))).
Proof.
  intros Hkey Hbase m. unfold create_openai_llm. run_constructor.
  by destruct (truthy _).
Qed.

Lemma create_anthropic_llm_run model t env d key :
  d !! "ANTHROPIC_API_KEY" = Some key →
  let m := [("ANTHROPIC_API_KEY", key)] in
  create_anthropic_llm model t (State env (Some d)) =
  (if truthy (switch_environ m env !! "ANTHROPIC_API_KEY")
   then Ok (ChatAnthropic (switch_environ m env !! "ANTHROPIC_API_KEY") model t 4095)
   else Raise (ValueError "Anthropic API key not set in .env file"),
   State (switch_environ m env) (Some (switch_snapshot m d))).
Proof.
  intros Hkey m. unfold create_anthropic_llm. run_constructor.
  by destruct (truthy _).
Qed.

Lemma create_groq_llm_run model t env d key :
  d !! "GROQ_API_KEY" = Some key →
  let m := [("GROQ_API_KEY", key)] in
  create_groq_llm model t (State env (Some d)) =
  (if truthy (switch_environ m env !! "GROQ_API_KEY")
   then Ok (ChatGroq (switch_environ m env !! "GROQ_API_KEY") model t 4095)
   else Raise (ValueError "Groq API key not set in .env file"),
   State (switch_environ m env) (Some (switch_snapshot m d))).
Proof.
  intros Hkey m. unfold create_groq_llm. run_constructor.
  by destruct (truthy _).
Qed.

Lemma create_google_llm_run model t env d key :
  d !! "GOOGLE_API_KEY" = Some key →
  let m := [("GOOGLE_API_KEY", key)] in
  create_google_llm model t (State env (Some d)) =
  (if truthy (switch_environ m env !! "GOOGLE_API_KEY")
   then Ok (ChatGoogleGenerativeAI (switch_environ m env !! "GOOGLE_API_KEY") model t true)
   else Raise (ValueError "Google API key not set in .env file"),
   State (switch_environ m env) (Some (switch_snapshot m d))).
Proof.
  intros Hkey m. unfold create_google_llm. run_constructor.
  by destruct (truthy _).
Qed.

Lemma create_ollama_llm_run model t env d host :
  d !! "OLLAMA_HOST" = Some host →
  let m := [("OPENAI_API_KEY", Some "ollama"); ("OPENAI_API_BASE", host)] in
  create_ollama_llm model t (State env (Some d)) =
  if truthy host
  then (Ok (LLM model t host), State (switch_environ m env) (Some (switch_snapshot m d)))
  else (Raise (ValueError "Ollama Host is not set in .env file"), State env (Some d)).
Proof.
  intros Hhost m. unfold create_ollama_llm.
  erewrite bind_Ok; [|by apply env_vars_getitem_run].
  destruct (truthy host); [|done].
  by erewrite bind_Ok; [|by apply switch_environment_run].
Qed.

Lemma create_lmstudio_llm_run model t env d base :
  d !! "LMSTUDIO_API_BASE" = Some base →
  let m := [("OPENAI_API_KEY", Some "lm-studio"); ("OPENAI_API_BASE", base)] in
  create_lmstudio_llm model t (State env (Some d)) =
  (if truthy (switch_environ m env !! "OPENAI_API_BASE")
   then Ok (ChatOpenAI "lm-studio" (switch_environ m env !! "OPENAI_API_BASE") t 4095)
   else Raise (ValueError "LM Studio API base not set in .env file"),
   State (switch_environ m env) (Some (switch_snapshot m d))).
Proof.
  intros Hbase m. unfold create_lmstudio_llm. run_constructor.
  by destruct (truthy _).
Qed.

(** The case named by C5: with no LM Studio base URL in the snapshot and
    no usable [OPENAI_API_BASE] in the environment, the constructor raises
    after it has written the sentinel key. *)
Lemma create_lmstudio_llm_missing_base model t env d :
  d !! "LMSTUDIO_API_BASE" = Some None →
  truthy (env !! "OPENAI_API_BASE") = false →
  create_lmstudio_llm model t (State env (Some d)) =
  (Raise (ValueError "LM Studio API base not set in .env file"),
   State (<["OPENAI_API_KEY" := "lm-studio"]> env)
     (Some (<["OPENAI_API_KEY" := Some "lm-studio"]> d))).
Proof.
  intros Hbase Henv. rewrite (create_lmstudio_llm_run _ _ _ _ _ Hbase).
  unfold switch_environ, switch_snapshot. cbn.
  rewrite lookup_insert_ne by done. by rewrite Henv.
Qed.

(** ** The factory: a successful construction *)

Lemma create_llm_Ok imp s t st provider model entry cl env1 d1 :
  split_from ": " 0 "" s = [provider; model] →
  dict_get (LLM_CONFIG imp) provider = Some entry →
  create_llm_func entry model t st = (Ok cl, State env1 (Some d1)) →
  create_llm imp s t st = (Ok cl, State (map_fold restore_item env1 d1) (Some d1)).
Proof.
  intros Hs Hp Hc. rewrite (create_llm_two_parts _ _ _ _ _ _ Hs), Hp.
  by rewrite (bind_Ok _ _ _ _ _ Hc).
Qed.

Lemma restore_in_sync env d : in_sync (map_fold restore_item env d) d.
Proof. intros k v Hk. by rewrite restore_fold_lookup, Hk. Qed.

(** A switch that only writes values the snapshot already holds leaves the
    snapshot as it is ... *)
Lemma switch_snapshot_id m d :
  (∀ k x, override_of m k = Some x → d !! k = Some (Some x)) →
  switch_snapshot m d = d.
Proof.
  intros Hm. apply map_eq. intros k. rewrite switch_snapshot_lookup.
  destruct (override_of m k) as [x|] eqn:Hk; [|done]. by rewrite (Hm k x).
Qed.


(** The snapshot created by [load_secrets_fron_env] has an entry for each
    of the seven recognized names. *)
Lemma load_secrets_creates_recognized dotenv env :
  ∃ env' d,
    load_secrets_fron_env dotenv (State env None) = (Ok tt, State env' (Some d)) ∧
    ∀ k, k ∈ recognized → is_Some (d !! k).
Proof.
  do 2 eexists. split; [reflexivity|]. intros k Hk.
  unfold recognized in Hk. cbn [environ].
  repeat (apply elem_of_cons in Hk as [->|Hk];
          [rewrite ?lookup_insert_eq, ?lookup_insert_ne by done; eauto|]).
  by apply elem_of_nil in Hk.
Qed.

(** C8: the session starts with [OPENAI_API_KEY] equal to ["sk-x"] and no
    [OPENAI_API_BASE] (in the environment after the [.env] file is read).
    Then the snapshot holds the key and the public endpoint as base URL,
    and [create_llm "OpenAI: gpt-4o" 0.2] returns the client
    [LLM(model="gpt-4o", temperature=0.2, base_url="https://api.openai.com/v1/")]. *)
Theorem create_llm_openai_default_base imp dotenv env :
  (dotenv ∪ env) !! "OPENAI_API_KEY" = Some "sk-x" →
  (dotenv ∪ env) !! "OPENAI_API_BASE" = None →
  ∃ d env',
    load_secrets_fron_env dotenv (State env None) =
      (Ok tt, State (dotenv ∪ env) (Some d)) ∧
    d !! "OPENAI_API_KEY" = Some (Some "sk-x") ∧
    d !! "OPENAI_API_BASE" = Some (Some "https://api.openai.com/v1/") ∧
    create_llm imp "OpenAI: gpt-4o" 0.2 (State (dotenv ∪ env) (Some d)) =
      (Ok (LLM "gpt-4o" 0.2 (Some "https://api.openai.com/v1/")),
       State env' (Some d)).
Proof.
  intros Hkey Hbase.
  destruct (load_secrets_creates_recognized dotenv env) as (env1 & d & Hload & _).
  assert (env1 = dotenv ∪ env) as -> by (by injection Hload).
  assert (d !! "OPENAI_API_KEY" = Some (Some "sk-x")) as Hdk.
  { injection Hload as <-. cbn [environ].
    rewrite !lookup_insert_ne by done. by rewrite lookup_insert_eq, Hkey. }
  assert (d !! "OPENAI_API_BASE" = Some (Some "https://api.openai.com/v1/")) as Hdb.
  { injection Hload as <-. cbn [environ].
    rewrite !lookup_insert_ne by done. by rewrite lookup_insert_eq, Hbase. }
  set (m := [("OPENAI_API_KEY", Some "sk-x");
             ("OPENAI_API_BASE", Some "https://api.openai.com/v1/")]).
  exists d, (map_fold restore_item (switch_environ m (dotenv ∪ env)) d).
  split; [done|]. split; [done|]. split; [done|].
  eapply create_llm_Ok; [reflexivity..|]. cbn [create_llm_func].
  rewrite (create_openai_llm_run _ _ _ _ _ _ Hdk Hdb). cbn zeta. fold m.
  rewrite (switch_snapshot_id m d).
  - by rewrite !switch_environ_lookup.
  - intros k x. cbn. repeat case_decide; naive_solver.
Qed.

Lemma create_llm_openai_default_base_witness :
  ∃ d env',
    load_secrets_fron_env ∅ (State {[ "OPENAI_API_KEY" := "sk-x" ]} None) =
      (Ok tt, State (∅ ∪ {[ "OPENAI_API_KEY" := "sk-x" ]}) (Some d)) ∧
    d !! "OPENAI_API_KEY" = Some (Some "sk-x") ∧
    d !! "OPENAI_API_BASE" = Some (Some "https://api.openai.com/v1/") ∧
    create_llm ∅ "OpenAI: gpt-4o" 0.2
      (State (∅ ∪ {[ "OPENAI_API_KEY" := "sk-x" ]}) (Some d)) =
      (Ok (LLM "gpt-4o" 0.2 (Some "https://api.openai.com/v1/")),
       State env' (Some d)).
Proof.
  apply (create_llm_openai_default_base ∅ ∅ {[ "OPENAI_API_KEY" := "sk-x" ]}).
  - reflexivity.
  - reflexivity.
Defined.




Lemma example_state_loaded :
  load_secrets_fron_env ∅ (State example_environ None) = (Ok tt, example_state).
Proof. vm_compute. reflexivity. Qed.








(** ** Two switches, then restore *)

(** The claim C2 fails on the code: the switch of the Ollama constructor,
    then the switch of the OpenAI constructor, then [restore_environment]
    leave ["ollama"] in [OPENAI_API_KEY], a value that Ollama's override
    wrote and that no entry of the original snapshot held.  The overrides
    of the OpenAI constructor are read from the snapshot, which by then
    holds what Ollama's switch wrote, so both override lists are the same. *)
Lemma switch_ollama_openai_keeps_sentinel :
  ∃ env' d',
    (create_ollama_llm "llama3" default_temperature >>
     create_openai_llm "gpt-4o" default_temperature >>
     restore_environment) example_state = (Ok tt, State env' (Some d')) ∧
    keeps_transient example_snapshot
      [("OPENAI_API_KEY", Some "ollama"); ("OPENAI_API_BASE", Some "http://localhost:11434")]
      [("OPENAI_API_KEY", Some "ollama"); ("OPENAI_API_BASE", Some "http://localhost:11434")]
      env'.
Proof.
  do 2 eexists. split; [vm_compute; reflexivity|].
  exists "OPENAI_API_KEY", "ollama".
  split; [apply elem_of_cons; by left|]. split; [reflexivity|].
  split; [left; apply elem_of_cons; by left|].
  apply (bool_decide_unpack _). vm_compute. exact I.
Qed.

(** C2, as the code has it.  After [switch_environment a], then
    [switch_environment b], then [restore_environment], the snapshot binds
    each name to the last present override of [b], else of [a], else to its
    original entry, and the environment is in sync with that snapshot: the
    values written by the switches stay.  A name that is not a key of the
    snapshot keeps its binding in the environment. *)
Theorem switch_switch_restore a b env d :
  ∃ env' d',
    (switch_environment a >> switch_environment b >> restore_environment)
      (State env (Some d)) = (Ok tt, State env' (Some d')) ∧
    (∀ k, d' !! k =
          match override_of b k with
          | Some x => Some (Some x)
          | None =>
              match override_of a k with
              | Some x => Some (Some x)
              | None => d !! k
              end
          end) ∧
    in_sync env' d' ∧
    (∀ k, d' !! k = None → env' !! k = env !! k).
Proof.
  exists (map_fold restore_item (switch_environ b (switch_environ a env))
            (switch_snapshot b (switch_snapshot a d))),
         (switch_snapshot b (switch_snapshot a d)).
  split; [|split; [|split]].
  - rewrite (bind_Ok _ _ _ _ _ (switch_environment_run a env d)).
    by rewrite (bind_Ok _ _ _ _ _ (switch_environment_run b _ _)).
  - intros k. by rewrite !switch_snapshot_lookup.
  - apply restore_in_sync.
  - intros k Hk. rewrite restore_fold_lookup, Hk, !switch_environ_lookup.
    rewrite !switch_snapshot_lookup in Hk.
    destruct (override_of b k); [done|]. by destruct (override_of a k).
Qed.

(** * Further properties of the module *)

(** ** Selectors *)

Lemma split_from_nonempty sep s : ∀ skip cur, split_from sep skip cur s ≠ [].
Proof.
  induction s as [|c s IH]; intros skip cur; [done|].
  cbn [split_from]. destruct skip as [|n]; [|apply IH].
  destruct (is_prefix sep (String c s)); [done | apply IH].
Qed.

(** A separator that occurs gives at least two pieces. *)
Lemma split_from_contains a sep s : ∀ cur,
  contains (String a sep) s = true →
  ∃ x y l, split_from (String a sep) 0 cur s = x :: y :: l.
Proof.
  induction s as [|c s IH]; intros cur Hs; [done|].
  cbn [contains] in Hs. cbn [split_from].
  destruct (is_prefix (String a sep) (String c s)) eqn:Hp.
  - destruct (split_from (String a sep) (String.length (String a sep) - 1) "" s)
      as [|y l] eqn:Hrest; [by apply split_from_nonempty in Hrest|].
    by exists cur, y, l.
  - apply IH. by rewrite orb_false_l in Hs.
Qed.

(** The first piece of ["p: m"] is [p] when [p] has no [": "] in it; the
    rest of the pieces are those of [m]. *)
Lemma split_from_provider p m : ∀ cur,
  contains ": " p = false →
  split_from ": " 0 cur (p +:+ ": " +:+ m) = (cur +:+ p) :: split_from ": " 0 "" m.
Proof.
  induction p as [|c p IH]; intros cur Hp.
  - cbn. by rewrite append_empty_r.
  - cbn [contains] in Hp. apply orb_false_iff in Hp as [Hhead Hp].
    change (String c p +:+ ": " +:+ m) with (String c (p +:+ ": " +:+ m)).
    cbn [split_from].
    assert (is_prefix ": " (String c (p +:+ ": " +:+ m)) = false) as ->.
    { cbn [is_prefix] in *. destruct (Ascii.eqb _ c); [|done].
      destruct p as [|c' p]; [done|].
      change (String c' p +:+ ": " +:+ m) with (String c' (p +:+ ": " +:+ m)).
      cbn [is_prefix] in *. by destruct (Ascii.eqb _ c'). }
    by rewrite (IH _ Hp), append_assoc.
Qed.

(** X1: a selector with a second [": "] after the provider name, such as
    ["OpenAI: ft: custom"], makes [create_llm] raise the "too many values"
    [ValueError], whether or not the provider is registered; nothing is
    mutated. *)
Theorem create_llm_too_many_parts imp p m t st :
  contains ": " p = false →
  contains ": " m = true →
  create_llm imp (p +:+ ": " +:+ m) t st =
  (Raise (ValueError "too many values to unpack (expected 2)"), st).
Proof.
  intros Hp Hm. unfold create_llm.
  rewrite (bind_Ok _ _ _ _ _ (str_split_colon _ st)).
  rewrite (split_from_provider _ _ _ Hp).
  by destruct (split_from_contains _ _ _ "" Hm) as (x & y & l & ->).
Qed.

Lemma create_llm_too_many_parts_witness :
  create_llm ∅ ("OpenAI" +:+ ": " +:+ "ft: custom") default_temperature example_state =
  (Raise (ValueError "too many values to unpack (expected 2)"), example_state).
Proof.
  apply (create_llm_too_many_parts ∅ "OpenAI" "ft: custom" default_temperature
           example_state).
  - reflexivity.
  - reflexivity.
Defined.

Lemma LLM_CONFIG_entry imp provider entry :
  (provider, entry) ∈ LLM_CONFIG imp →
  dict_get (LLM_CONFIG imp) provider = Some entry ∧ contains ": " provider = false.
Proof.
  intros Hin. unfold LLM_CONFIG in Hin.
  repeat (apply elem_of_cons in Hin as [[= -> ->]|Hin]; [by split|]).
  by apply elem_of_nil in Hin.
Qed.

Lemma llm_providers_and_models_elem imp s :
  s ∈ llm_providers_and_models imp ↔
  ∃ provider entry model,
    (provider, entry) ∈ LLM_CONFIG imp ∧ model ∈ models entry ∧
    s = provider +:+ ": " +:+ model.
Proof.
  unfold llm_providers_and_models. rewrite list_elem_of_bind. split.
  - intros ([provider entry] & Hs & Hin).
    apply list_elem_of_bind in Hs as (model & Hs & Hmodel).
    apply list_elem_of_singleton in Hs. by exists provider, entry, model.
  - intros (provider & entry & model & Hin & Hmodel & ->).
    exists (provider, entry). split; [|done].
    apply list_elem_of_bind. exists model. split; [|done].
    by apply list_elem_of_singleton.
Qed.

(** X2: every selector that [llm_providers_and_models] offers names a
    registered provider and one of its models, and, when the model name has
    no [": "] in it, [create_llm] parses it back to that provider and model:
    it runs the provider's constructor on the model and then
    [restore_environment]. *)
Theorem llm_providers_and_models_dispatch imp s t st :
  s ∈ llm_providers_and_models imp →
  ∃ provider entry model,
    dict_get (LLM_CONFIG imp) provider = Some entry ∧
    model ∈ models entry ∧
    s = provider +:+ ": " +:+ model ∧
    (contains ": " model = false →
     create_llm imp s t st =
     (let* llm := create_llm_func entry model t in
      restore_environment >> ret llm) st).
Proof.
  intros (provider & entry & model & Hin & Hmodel & ->)%llm_providers_and_models_elem.
  destruct (LLM_CONFIG_entry _ _ _ Hin) as [Hget Hp].
  exists provider, entry, model. repeat split; [done..|].
  intros Hm. rewrite (create_llm_two_parts imp _ t st provider model).
  - by rewrite Hget.
  - by rewrite (split_from_provider _ _ _ Hp), (split_from_no_sep _ _ _ Hm).
Qed.

Lemma llm_providers_and_models_dispatch_witness :
  ∃ provider entry model,
    dict_get (LLM_CONFIG ∅) provider = Some entry ∧
    model ∈ models entry ∧
    "Groq: llama3-70b-8192" = provider +:+ ": " +:+ model ∧
    (contains ": " model = false →
     create_llm ∅ "Groq: llama3-70b-8192" default_temperature example_state =
     (let* llm := create_llm_func entry model default_temperature in
      restore_environment >> ret llm) example_state).
Proof.
  apply (llm_providers_and_models_dispatch ∅ "Groq: llama3-70b-8192"
           default_temperature example_state).
  apply (bool_decide_unpack _). vm_compute. exact I.
Defined.

(** X3: the menu has Ollama entries exactly when [OLLAMA_MODELS] was set
    to a non-empty value when the module was imported. *)
Theorem ollama_offered_iff_models_set imp :
  (∃ model, "Ollama: " +:+ model ∈ llm_providers_and_models imp) ↔
  truthy (imp !! "OLLAMA_MODELS") = true.
Proof.
  split.
  - intros (model & (provider & entry & model' & Hin & Hmodel & Hs)%llm_providers_and_models_elem).
    unfold LLM_CONFIG in Hin.
    repeat (apply elem_of_cons in Hin as [[= -> ->]|Hin]); try discriminate Hs.
    + cbn [models] in Hmodel. unfold models_from_env in Hmodel.
      destruct (truthy (imp !! "OLLAMA_MODELS")); [done|].
      by apply elem_of_nil in Hmodel.
    + by apply elem_of_nil in Hin.
  - intros Hset.
    destruct (split_from "," 0 "" (default "" (imp !! "OLLAMA_MODELS")))
      as [|model l] eqn:Hsplit; [by apply split_from_nonempty in Hsplit|].
    exists model. apply llm_providers_and_models_elem.
    exists "Ollama", (ProviderEntry (models_from_env imp "OLLAMA_MODELS" []) create_ollama_llm),
           model.
    split; [|split; [|done]].
    + unfold LLM_CONFIG. do 3 (apply elem_of_cons; right). apply elem_of_cons. by left.
    + cbn [models]. unfold models_from_env. rewrite Hset, Hsplit.
      apply elem_of_cons. by left.
Qed.

(** ** Initialization *)

(** X4: on a session without a snapshot, [load_secrets_fron_env] writes
    the [.env] bindings over the environment and creates a snapshot whose
    keys are exactly the seven recognized names.  Each entry is the [.env]
    value if there is one, else the environment's value, else [None];
    [OPENAI_API_BASE] gets the public endpoint only when it is set in
    neither (an empty string is kept). *)
Theorem load_secrets_fresh_snapshot dotenv env :
  ∃ d,
    load_secrets_fron_env dotenv (State env None) =
      (Ok tt, State (dotenv ∪ env) (Some d)) ∧
    dom d = list_to_set recognized ∧
    d !! "OPENAI_API_BASE" =
      Some (Some (default "https://api.openai.com/v1/"
                    (match dotenv !! "OPENAI_API_BASE" with
                     | Some v => Some v
                     | None => env !! "OPENAI_API_BASE"
                     end))) ∧
    ∀ k, k ∈ recognized → k ≠ "OPENAI_API_BASE" →
         d !! k = Some (match dotenv !! k with Some v => Some v | None => env !! k end).
Proof.
  assert (∀ k, (dotenv ∪ env) !! k =
               match dotenv !! k with Some v => Some v | None => env !! k end) as Hu.
  { intros k. rewrite lookup_union. by destruct (dotenv !! k), (env !! k). }
  eexists. split; [reflexivity|]. cbn [environ]. split; [|split].
  - rewrite !dom_insert_L, dom_empty_L. unfold recognized. cbn [list_to_set]. set_solver.
  - rewrite !lookup_insert_ne by done. by rewrite lookup_insert_eq, Hu.
  - intros k Hk Hbase. unfold recognized in Hk.
    repeat (apply elem_of_cons in Hk as [->|Hk];
            [first [done | by rewrite ?lookup_insert_eq, ?lookup_insert_ne, ?Hu by done]|]).
    by apply elem_of_nil in Hk.
Qed.

(** X5: [load_secrets_fron_env] on a fresh session followed by
    [restore_environment] leaves the environment as the [.env] file made
    it, except that [OPENAI_API_BASE] is now set: to its own value, or to
    the public endpoint when it was unset. *)
Theorem load_then_restore dotenv env :
  ∃ d,
    (load_secrets_fron_env dotenv >> restore_environment) (State env None) =
    (Ok tt,
     State (<["OPENAI_API_BASE" :=
                default "https://api.openai.com/v1/" ((dotenv ∪ env) !! "OPENAI_API_BASE")]>
              (dotenv ∪ env))
           (Some d)).
Proof.
  destruct (load_secrets_creates_recognized dotenv env) as (env1 & d & Hload & _).
  exists d. rewrite (bind_Ok _ _ _ _ _ Hload), restore_environment_run.
  injection Hload as <- <-. cbn [environ]. do 2 f_equal.
  apply map_eq. intros k. rewrite restore_fold_lookup.
  destruct (decide (k = "OPENAI_API_BASE")) as [->|Hbase].
  - rewrite !lookup_insert_ne by done. by rewrite !lookup_insert_eq.
  - rewrite (lookup_insert_ne _ "OPENAI_API_BASE" k) by done.
    repeat (rewrite (lookup_insert _ _ k); case_decide; [by subst k|]).
    by rewrite lookup_empty.
Qed.

(** ** More on switch and restore *)




(** X8: [restore_environment] is idempotent: running it twice ends in
    the same state, with the same outcome, as running it once. *)
Theorem restore_environment_idempotent st :
  (restore_environment >> restore_environment) st = restore_environment st.
Proof.
  destruct st as [env [d|]]; [|done].
  rewrite (bind_Ok _ _ _ _ _ (restore_environment_run env d)).
  rewrite !restore_environment_run. do 2 f_equal.
  apply map_eq. intros k. rewrite !restore_fold_lookup. by destruct (d !! k).
Qed.

Lemma override_of_Some_elem m k x : override_of m k = Some x → (k, Some x) ∈ m.
Proof.
  induction m as [|[key v] rest IH]; [done|]. cbn.
  destruct (override_of rest k) as [y|].
  - intros [= ->]. apply elem_of_cons. right. by apply IH.
  - case_decide as Hkey; [|done]. intros ->. subst key. apply elem_of_cons. by left.
Qed.

(** X9: when every pair handed to [switch_environment] carries the value
    the snapshot already has for that name, as in the constructors that
    read their credentials from the snapshot, the switch followed by
    [restore_environment] ends in the same state as [restore_environment]
    alone. *)
Theorem switch_from_snapshot_then_restore m env d :
  Forall (λ kv, d !! kv.1 = Some kv.2) m →
  (switch_environment m >> restore_environment) (State env (Some d)) =
  restore_environment (State env (Some d)).
Proof.
  intros Hm. rewrite Forall_forall in Hm.
  assert (∀ k x, override_of m k = Some x → d !! k = Some (Some x)) as Hov.
  { intros k x Hk. by apply (Hm (k, Some x)), override_of_Some_elem. }
  rewrite (bind_Ok _ _ _ _ _ (switch_environment_run m env d)).
  rewrite !restore_environment_run, (switch_snapshot_id _ _ Hov). do 2 f_equal.
  apply map_eq. intros k. rewrite !restore_fold_lookup, switch_environ_lookup.
  destruct (d !! k) as [v|] eqn:Hd; [done|].
  destruct (override_of m k) as [x|] eqn:Hk; [|done].
  rewrite (Hov k x Hk) in Hd. discriminate.
Qed.

Lemma switch_from_snapshot_then_restore_witness :
  (switch_environment
     [("OPENAI_API_KEY", Some "sk-x"); ("OPENAI_API_BASE", Some "https://api.openai.com/v1/")]
     >> restore_environment)
    (State {[ "OPENAI_API_KEY" := "stale" ]} (Some example_snapshot)) =
  restore_environment (State {[ "OPENAI_API_KEY" := "stale" ]} (Some example_snapshot)).
Proof.
  apply (switch_from_snapshot_then_restore
           [("OPENAI_API_KEY", Some "sk-x");
            ("OPENAI_API_BASE", Some "https://api.openai.com/v1/")]
           {[ "OPENAI_API_KEY" := "stale" ]} example_snapshot).
  apply (bool_decide_unpack _). vm_compute. exact I.
Defined.

(** X10: removing with [safe_pop_env_var] a variable that is a key of the
    snapshot has no effect once [restore_environment] has run: restore sets
    it again, or keeps it unset, as the snapshot says. *)
Theorem safe_pop_then_restore key v env d :
  d !! key = Some v →
  (safe_pop_env_var key >> restore_environment) (State env (Some d)) =
  restore_environment (State env (Some d)).
Proof.
  intros Hkey. unfold bind, safe_pop_env_var. cbn [environ session_env_vars].
  rewrite !restore_environment_run. do 2 f_equal.
  apply map_eq. intros k. rewrite !restore_fold_lookup.
  destruct (d !! k) as [w|] eqn:Hd; [done|].
  apply lookup_delete_ne. intros ->. congruence.
Qed.

Lemma safe_pop_then_restore_witness :
  (safe_pop_env_var "OPENAI_API_KEY" >> restore_environment)
    (State example_environ (Some example_snapshot)) =
  restore_environment (State example_environ (Some example_snapshot)).
Proof.
  apply (safe_pop_then_restore "OPENAI_API_KEY" (Some "sk-x")
           example_environ example_snapshot).
  reflexivity.
Defined.

(** ** The factory before initialization *)

Lemma dict_get_Some_elem {V} (d : list (string * V)) key v :
  dict_get d key = Some v → (key, v) ∈ d.
Proof.
  induction d as [|[k w] d IH]; cbn; [done|].
  destruct (String.eqb_spec k key) as [->|_].
  - intros [= ->]. apply elem_of_cons. by left.
  - intros Hd. apply elem_of_cons. right. by apply IH.
Qed.

(** X11: before [load_secrets_fron_env] has created the snapshot,
    [create_llm] on a selector of any registered provider raises
    [AttributeError], and neither the environment nor the session state is
    changed: every constructor reads the snapshot before it switches. *)
Theorem create_llm_before_initialization imp s t env provider model entry :
  split_from ": " 0 "" s = [provider; model] →
  dict_get (LLM_CONFIG imp) provider = Some entry →
  create_llm imp s t (State env None) =
  (Raise (AttributeError "env_vars"), State env None).
Proof.
  intros Hs Hp. rewrite (create_llm_two_parts _ _ _ _ _ _ Hs), Hp.
  apply bind_Raise. apply dict_get_Some_elem in Hp. unfold LLM_CONFIG in Hp.
  repeat (apply elem_of_cons in Hp as [[= -> ->]|Hp]; [done|]).
  by apply elem_of_nil in Hp.
Qed.

Lemma create_llm_before_initialization_witness :
  create_llm ∅ "LM Studio: lms-default" default_temperature (State example_environ None) =
  (Raise (AttributeError "env_vars"), State example_environ None).
Proof.
  apply (create_llm_before_initialization ∅ "LM Studio: lms-default" default_temperature
           example_environ "LM Studio" "lms-default"
           (ProviderEntry ["lms-default"] create_lmstudio_llm)).
  - reflexivity.
  - reflexivity.
Defined.

(** ** Missing credentials *)

Lemma create_llm_Raise imp s t st provider model entry e st' :
  split_from ": " 0 "" s = [provider; model] →
  dict_get (LLM_CONFIG imp) provider = Some entry →
  create_llm_func entry model t st = (Raise e, st') →
  create_llm imp s t st = (Raise e, st').
Proof.
  intros Hs Hp Hc. rewrite (create_llm_two_parts _ _ _ _ _ _ Hs), Hp.
  by apply bind_Raise.
Qed.

Lemma split_provider_model p model :
  contains ": " p = false →
  contains ": " model = false →
  split_from ": " 0 "" (p +:+ ": " +:+ model) = [p; model].
Proof.
  intros Hp Hm. by rewrite (split_from_provider _ _ _ Hp), (split_from_no_sep _ _ _ Hm).
Qed.

(** X12: with no Ollama host in the snapshot ([None] or the empty string),
    [create_llm "Ollama: model"] raises its [ValueError] before any switch:
    the environment and the snapshot are exactly what they were. *)
Theorem create_llm_ollama_missing_host imp model t env d host :
  contains ": " model = false →
  d !! "OLLAMA_HOST" = Some host →
  truthy host = false →
  create_llm imp ("Ollama" +:+ ": " +:+ model) t (State env (Some d)) =
  (Raise (ValueError "Ollama Host is not set in .env file"), State env (Some d)).
Proof.
  intros Hm Hhost Hfalsy.
  eapply create_llm_Raise; [by apply split_provider_model | reflexivity |].
  cbn [create_llm_func]. by rewrite (create_ollama_llm_run _ _ _ _ _ Hhost), Hfalsy.
Qed.

Lemma create_llm_ollama_missing_host_witness :
  create_llm ∅ ("Ollama" +:+ ": " +:+ "llama3") default_temperature
    (State {[ "OPENAI_API_KEY" := "sk-x" ]}
       (Some {[ "OPENAI_API_KEY" := Some "sk-x"; "OLLAMA_HOST" := None ]})) =
  (Raise (ValueError "Ollama Host is not set in .env file"),
   State {[ "OPENAI_API_KEY" := "sk-x" ]}
     (Some {[ "OPENAI_API_KEY" := Some "sk-x"; "OLLAMA_HOST" := None ]})).
Proof.
  apply (create_llm_ollama_missing_host ∅ "llama3" default_temperature
           {[ "OPENAI_API_KEY" := "sk-x" ]}
           {[ "OPENAI_API_KEY" := Some "sk-x"; "OLLAMA_HOST" := None ]} None).
  - reflexivity.
  - reflexivity.
  - reflexivity.
Defined.

Lemma key_provider_run imp p cred msg model t env d v :
  (p, cred, msg) ∈ key_providers →
  contains ": " model = false →
  d !! cred = Some v →
  ∃ cl,
    cl ∈ [ ChatAnthropic (switch_environ [(cred, v)] env !! cred) model t 4095;
           ChatGroq (switch_environ [(cred, v)] env !! cred) model t 4095;
           ChatGoogleGenerativeAI (switch_environ [(cred, v)] env !! cred) model t true ] ∧
    split_from ": " 0 "" (p +:+ ": " +:+ model) = [p; model] ∧
    ∃ entry,
      dict_get (LLM_CONFIG imp) p = Some entry ∧
      create_llm_func entry model t (State env (Some d)) =
      (if truthy (switch_environ [(cred, v)] env !! cred)
       then Ok cl else Raise (ValueError msg),
       State (switch_environ [(cred, v)] env) (Some (switch_snapshot [(cred, v)] d))).
Proof.
  intros Hp Hm Hc. unfold key_providers in Hp.
  repeat (apply elem_of_cons in Hp as [[= -> -> ->]|Hp]); [..|by apply elem_of_nil in Hp].
  - eexists. split; [apply elem_of_cons; by left|].
    split; [by apply split_provider_model|].
    eexists. split; [reflexivity|]. cbn [create_llm_func].
    by rewrite (create_anthropic_llm_run _ _ _ _ _ Hc).
  - eexists. split; [apply elem_of_cons; right; apply elem_of_cons; by left|].
    split; [by apply split_provider_model|].
    eexists. split; [reflexivity|]. cbn [create_llm_func].
    by rewrite (create_groq_llm_run _ _ _ _ _ Hc).
  - eexists. split; [do 2 (apply elem_of_cons; right); apply elem_of_cons; by left|].
    split; [by apply split_provider_model|].
    eexists. split; [reflexivity|]. cbn [create_llm_func].
    by rewrite (create_google_llm_run _ _ _ _ _ Hc).
Qed.

(** X13: Anthropic, Groq and Google with no usable key.  When the
    snapshot entry for the provider's key is [None] or the empty string and
    the environment variable agrees with it, [create_llm] raises the
    provider's [ValueError], and the environment and the snapshot are
    exactly what they were. *)
Theorem create_llm_missing_key imp p cred msg model t env d v :
  (p, cred, msg) ∈ key_providers →
  contains ": " model = false →
  d !! cred = Some v →
  env !! cred = v →
  truthy v = false →
  create_llm imp (p +:+ ": " +:+ model) t (State env (Some d)) =
  (Raise (ValueError msg), State env (Some d)).
Proof.
  intros Hp Hm Hc Henv Hfalsy.
  destruct (key_provider_run imp _ _ _ _ t env _ _ Hp Hm Hc)
    as (cl & _ & Hsplit & entry & Hentry & Hrun).
  eapply create_llm_Raise; [done..|]. rewrite Hrun.
  assert (switch_environ [(cred, v)] env = env) as ->.
  { destruct v as [x|]; [|done]. by apply insert_id. }
  assert (switch_snapshot [(cred, v)] d = d) as ->.
  { destruct v as [x|]; [|done]. by apply insert_id. }
  by rewrite Henv, Hfalsy.
Qed.

Lemma create_llm_missing_key_witness :
  create_llm ∅ ("Anthropic" +:+ ": " +:+ "claude-3-5-sonnet-20240620") default_temperature
    (State example_environ (Some example_snapshot)) =
  (Raise (ValueError "Anthropic API key not set in .env file"),
   State example_environ (Some example_snapshot)).
Proof.
  apply (create_llm_missing_key ∅ "Anthropic" "ANTHROPIC_API_KEY"
           "Anthropic API key not set in .env file" "claude-3-5-sonnet-20240620"
           default_temperature example_environ example_snapshot None).
  - apply (bool_decide_unpack _). vm_compute. exact I.
  - reflexivity.
  - reflexivity.
  - reflexivity.
  - reflexivity.
Defined.



(** ** Local-hosting providers *)

(** X15: LM Studio without a base URL of its own.  When the snapshot
    entry [LMSTUDIO_API_BASE] is [None] and [OPENAI_API_BASE] holds a
    non-empty value [b] in the environment, [create_llm "LM Studio: model"]
    does not fail: it returns a [ChatOpenAI] client with the sentinel key
    and base URL [b], and the sentinel is now the snapshot's
    [OPENAI_API_KEY]. *)
Theorem create_llm_lmstudio_uses_openai_base imp model t env d b :
  contains ": " model = false →
  d !! "LMSTUDIO_API_BASE" = Some None →
  env !! "OPENAI_API_BASE" = Some b →
  b ≠ "" →
  ∃ env',
    create_llm imp ("LM Studio" +:+ ": " +:+ model) t (State env (Some d)) =
      (Ok (ChatOpenAI "lm-studio" (Some b) t 4095),
       State env' (Some (<["OPENAI_API_KEY" := Some "lm-studio"]> d))) ∧
    env' !! "OPENAI_API_KEY" = Some "lm-studio".
Proof.
  intros Hm Hbase Henv Hne. apply truthy_Some in Hne.
  pose proof (create_lmstudio_llm_run model t env d _ Hbase) as Hrun.
  cbn zeta in Hrun.
  change (switch_environ _ env) with (<["OPENAI_API_KEY" := "lm-studio"]> env) in Hrun.
  change (switch_snapshot _ d) with (<["OPENAI_API_KEY" := Some "lm-studio"]> d) in Hrun.
  rewrite lookup_insert_ne, Henv, Hne in Hrun by done.
  eexists. split.
  - eapply create_llm_Ok; [by apply split_provider_model | reflexivity | exact Hrun].
  - by rewrite restore_fold_lookup, lookup_insert_eq.
Qed.

Lemma create_llm_lmstudio_uses_openai_base_witness :
  ∃ env',
    create_llm ∅ ("LM Studio" +:+ ": " +:+ "lms-default") default_temperature
      (State example_environ (Some example_snapshot)) =
      (Ok (ChatOpenAI "lm-studio" (Some "https://api.openai.com/v1/") default_temperature 4095),
       State env' (Some (<["OPENAI_API_KEY" := Some "lm-studio"]> example_snapshot))) ∧
    env' !! "OPENAI_API_KEY" = Some "lm-studio".
Proof.
  apply (create_llm_lmstudio_uses_openai_base ∅ "lms-default" default_temperature
           example_environ example_snapshot "https://api.openai.com/v1/").
  - reflexivity.
  - reflexivity.
  - reflexivity.
  - discriminate.
Defined.



(** ** What every call of the factory guarantees *)

(** X17: whenever [create_llm] returns a client, for any selector and
    from any state, the session has a snapshot and the environment is in
    sync with it: every key of the snapshot holds exactly the snapshot's
    entry. *)
Theorem create_llm_Ok_in_sync imp s t st cl st' :
  create_llm imp s t st = (Ok cl, st') →
  ∃ d', session_env_vars st' = Some d' ∧ in_sync (environ st') d'.
Proof.
  intros Hrun. unfold create_llm in Hrun.
  rewrite (bind_Ok _ _ _ _ _ (str_split_colon s st)) in Hrun.
  destruct (split_from ": " 0 "" s) as [|provider [|model [|x l]]]; try discriminate Hrun.
  destruct (dict_get (LLM_CONFIG imp) provider) as [entry|]; [|discriminate Hrun].
  unfold bind in Hrun.
  destruct (create_llm_func entry model t st) as [[llm|e] [env1 [d1|]]];
    try discriminate Hrun.
  rewrite restore_environment_run in Hrun. injection Hrun as <- <-.
  exists d1. split; [done|]. apply restore_in_sync.
Qed.

Lemma create_llm_Ok_in_sync_witness :
  ∃ d',
    session_env_vars (create_llm ∅ "OpenAI: gpt-4o" 0.2 example_state).2 = Some d' ∧
    in_sync (environ (create_llm ∅ "OpenAI: gpt-4o" 0.2 example_state).2) d'.
Proof.
  apply (create_llm_Ok_in_sync ∅ "OpenAI: gpt-4o" 0.2 example_state
           (LLM "gpt-4o" 0.2 (Some "https://api.openai.com/v1/"))).
  vm_compute. reflexivity.
Defined.

Lemma switch_snapshot_keeps m (d : gmap string (option string)) :
  Forall (λ k, is_Some (d !! k)) recognized →
  Forall (λ k, is_Some (switch_snapshot m d !! k)) recognized.
Proof.
  intros Hdom. eapply Forall_impl; [exact Hdom|].
  intros k Hk. cbn beta. rewrite switch_snapshot_lookup.
  by destruct (override_of m k).
Qed.

Lemma recognized_lookup (d : gmap string (option string)) k :
  Forall (λ k, is_Some (d !! k)) recognized → k ∈ recognized → ∃ v, d !! k = Some v.
Proof. rewrite Forall_forall. intros Hdom Hk. by apply Hdom. Qed.

(** A constructor of the registry, run on a snapshot with the seven
    names, ends with a snapshot that a switch made from it, and raises
    nothing but [ValueError]. *)
Lemma constructor_outcome imp provider entry model t env d :
  (provider, entry) ∈ LLM_CONFIG imp →
  Forall (λ k, is_Some (d !! k)) recognized →
  ∃ r env1 m,
    create_llm_func entry model t (State env (Some d)) =
      (r, State env1 (Some (switch_snapshot m d))) ∧
    ∀ e, r = Raise e → ∃ msg, e = ValueError msg.
Proof.
  intros Hin Hdom.
  assert (∀ k, bool_decide (k ∈ recognized) = true → ∃ v, d !! k = Some v) as Hget.
  { intros k Hk. apply (recognized_lookup _ _ Hdom). by apply bool_decide_eq_true in Hk. }
  unfold LLM_CONFIG in Hin.
  repeat (apply elem_of_cons in Hin as [[= -> ->]|Hin]); [..|by apply elem_of_nil in Hin];
    cbn [create_llm_func].
  - destruct (Hget "OPENAI_API_KEY" eq_refl) as [key Hkey].
    destruct (Hget "OPENAI_API_BASE" eq_refl) as [base Hbase].
    rewrite (create_openai_llm_run _ _ _ _ _ _ Hkey Hbase). cbn zeta.
    do 3 eexists. split; [reflexivity|].
    destruct (truthy _); intros e [= <-]; eauto.
  - destruct (Hget "GROQ_API_KEY" eq_refl) as [key Hkey].
    rewrite (create_groq_llm_run _ _ _ _ _ Hkey). cbn zeta.
    do 3 eexists. split; [reflexivity|].
    destruct (truthy _); intros e [= <-]; eauto.
  - destruct (Hget "GOOGLE_API_KEY" eq_refl) as [key Hkey].
    rewrite (create_google_llm_run _ _ _ _ _ Hkey). cbn zeta.
    do 3 eexists. split; [reflexivity|].
    destruct (truthy _); intros e [= <-]; eauto.
  - destruct (Hget "OLLAMA_HOST" eq_refl) as [host Hhost].
    rewrite (create_ollama_llm_run _ _ _ _ _ Hhost). cbn zeta.
    destruct (truthy host).
    + do 3 eexists. split; [reflexivity|]. intros e [=].
    + exists (Raise (ValueError "Ollama Host is not set in .env file")), env, [].
      split; [reflexivity|]. intros e [= <-]; eauto.
  - destruct (Hget "ANTHROPIC_API_KEY" eq_refl) as [key Hkey].
    rewrite (create_anthropic_llm_run _ _ _ _ _ Hkey). cbn zeta.
    do 3 eexists. split; [reflexivity|].
    destruct (truthy _); intros e [= <-]; eauto.
  - destruct (Hget "LMSTUDIO_API_BASE" eq_refl) as [base Hbase].
    rewrite (create_lmstudio_llm_run _ _ _ _ _ Hbase). cbn zeta.
    do 3 eexists. split; [reflexivity|].
    destruct (truthy _); intros e [= <-]; eauto.
Qed.

(** X18: a snapshot with an entry for each of the seven recognized names
    (as [load_secrets_fron_env] creates it) is kept that way by every call
    of [create_llm], whatever the selector and whether the call returns or
    raises; and such a call raises nothing but [ValueError]: no [KeyError]
    or [AttributeError] comes out of the snapshot reads. *)
Theorem create_llm_keeps_recognized imp s t env d r st' :
  Forall (λ k, is_Some (d !! k)) recognized →
  create_llm imp s t (State env (Some d)) = (r, st') →
  (∃ d', session_env_vars st' = Some d' ∧
         Forall (λ k, is_Some (d' !! k)) recognized) ∧
  (∀ e, r = Raise e → ∃ msg, e = ValueError msg).
Proof.
  intros Hdom Hrun.
  destruct (split_from ": " 0 "" s) as [|provider [|model [|x l]]] eqn:Hs.
  1, 2, 4: unfold create_llm in Hrun;
    rewrite (bind_Ok _ _ _ _ _ (str_split_colon s _)), Hs in Hrun;
    injection Hrun as <- <-; split; [by exists d | intros e [= <-]; eauto].
  rewrite (create_llm_two_parts _ _ _ _ _ _ Hs) in Hrun.
  destruct (dict_get (LLM_CONFIG imp) provider) as [entry|] eqn:Hget.
  - apply dict_get_Some_elem in Hget.
    destruct (constructor_outcome imp _ _ model t env d Hget Hdom)
      as (r1 & env1 & m & Hc & Hr1).
    unfold bind in Hrun. rewrite Hc in Hrun. destruct r1 as [llm|e1].
    + rewrite restore_environment_run in Hrun. injection Hrun as <- <-. split.
      * eexists. split; [reflexivity|]. by apply switch_snapshot_keeps.
      * intros e [=].
    + injection Hrun as <- <-. split; [|done].
      eexists. split; [reflexivity|]. by apply switch_snapshot_keeps.
  - injection Hrun as <- <-. split; [by exists d | intros e [= <-]; eauto].
Qed.

Lemma create_llm_keeps_recognized_witness :
  (∃ d', session_env_vars
           (State {[ "OPENAI_API_KEY" := "lm-studio";
                     "OPENAI_API_BASE" := "";
                     "OLLAMA_HOST" := "http://localhost:11434" ]}
              (Some (<["OPENAI_API_KEY" := Some "lm-studio"]>
                       (<["OPENAI_API_BASE" := Some ""]> example_snapshot)))) = Some d' ∧
         Forall (λ k, is_Some (d' !! k)) recognized) ∧
  (∀ e, Raise (A:=client) (ValueError "LM Studio API base not set in .env file") = Raise e →
        ∃ msg, e = ValueError msg).
Proof.
  apply (create_llm_keeps_recognized ∅ "LM Studio: lms-default" default_temperature
           (<["OPENAI_API_BASE" := ""]> example_environ)
           (<["OPENAI_API_BASE" := Some ""]> example_snapshot)).
  - apply (bool_decide_unpack _). vm_compute. exact I.
  - vm_compute. reflexivity.
Defined.
